(** * Network address registry of the liquidation scripts

    [scripts/liquidation/liquidation_config.py] is one Python dict literal,
    [LiquidationConfig], from a network name to a dict from a contract label
    to an address string.  The literal is embedded as finite maps built the
    way Python evaluates a dict display, and the accessors its callers use
    (subscripting, the key views) are stated on top of it. *)

From Stdlib Require Import Ascii String.
From stdpp Require Import base option list strings gmap fin_maps fin_sets.

Open Scope string_scope.

(** ** Python dict displays and subscripting *)

Module Py.

(** The error a subscript [d[k]] raises when [k] is not a key of [d]:
    Python's [KeyError], carrying the key. *)
Inductive error : Type :=
| KeyNotFound (key : string).

Definition result (A : Type) : Type := (error + A)%type.

(** A dict display [{k1: v1, ..., kn: vn}] is evaluated left to right,
    each pair stored into the dict under construction: a later pair with
    the same key overwrites the earlier one. *)
Definition dict_display {V : Type} (items : list (string * V)) : gmap string V :=
  fold_left (λ d kv, <[kv.1 := kv.2]> d) items ∅.

(** [d[k]] *)
Definition getitem {V : Type} (d : gmap string V) (k : string) : result V :=
  match d !! k with
  | Some v => inr v
  | None => inl (KeyNotFound k)
  end.

(** [set(d.keys())] *)
Definition keys {V : Type} (d : gmap string V) : gset string := dom d.

(** Sequencing of two steps either of which may raise: the first error
    aborts the rest, as an uncaught exception does. *)
Definition bind {A B : Type} (r : result A) (k : A → result B) : result B :=
  match r with
  | inl e => inl e
  | inr a => k a
  end.

End Py.

(** ** The table, as in the source *)

Definition kovan_items : list (string * string) :=
  [ ("NotionalV2", "0x0EAE7BAdEF8f95De91fDDb74a89A786cF891Eb0e");
    ("MockFlashLender", "0xFcdAe2109D5Fa3Fbe82E4FE03110966cA449057c");
    ("AaveFlashLender", "0xe0fba4fc209b4948668006b2be61711b7f465bae");
    ("LeakyFlashLender", "0xb3E6bBf0aC44965Ed5842d2feC2acCa89DB9C586");
    ("WETH", "0xd0A1E359811322d97991E03f863a0C30C2cF029C");
    ("DAI", "0x181d62ff8c0aeed5bc2bf77a88c07235c4cc6905");
    ("USDC", "0xf503d5cd87d10ce8172f9e77f76ade8109037b4c");
    ("WBTC", "0x45a8451ceaae5976b4ae5f14a7ad789fae8e9971");
    ("ADAI", "0xFf795577d9AC8bD7D90Ee22b6C1703490b6512FD");
    ("UniswapRouter", "0xE592427A0AEce92De3Edee1F18E0157C05861564");
    ("cETH", "0x40575f9Eb401f63f66F4c434248ad83D3441bf61");
    ("cDAI", "0x4dc87a3d30c4a1b33e4349f02f4c5b1b1ef9a75d");
    ("cUSDC", "0xf17c5c7240cbc83d3186a9d6935f003e451c5cdd");
    ("cWBTC", "0xa8e51e20985e926de882ee700ec7f7d51d89d130");
    ("caDAI", "0xED36a75A9ca4f72ad0fD8f3FB56b2c9aA8ceA28d");
    ("UniswapWETHDAI", "0x4ba1d028e053A53842Ce31b0357C5864B40Ef909");
    ("NoteToken", "0xCFEAead4947f0705A14ec42aC3D44129E1Ef3eD5") ].

Definition mainnet_items : list (string * string) :=
  [ ("NotionalV2", "0x1344A36A1B56144C3Bc62E7757377D288fDE0369");
    ("AaveFlashLender", "0x7d2768dE32b0b80b7a3454c06BdAc94A69DDc7A9");
    ("WETH", "0xC02aaA39b223FE8D0A0e5C4F27eAD9083C756Cc2");
    ("DAI", "0x6B175474E89094C44Da98b954EedeAC495271d0F");
    ("USDC", "0xA0b86991c6218b36c1d19D4a2e9Eb0cE3606eB48");
    ("WBTC", "0x2260FAC5E5542a773Aa44fBCfeDf7C193bc2C599");
    ("UniswapRouter", "0xE592427A0AEce92De3Edee1F18E0157C05861564");
    ("cETH", "0x4ddc2d193948926d02f9b1fe9e1daa0718270ed5");
    ("cDAI", "0x5d3a536e4d6dbd6114cc1ead35777bab948e3643");
    ("cUSDC", "0x39aa39c021dfbae8fac545936693ac917d5e7563");
    ("cWBTC", "0xC11b1268C1A384e55C48c2391d8d480264A3A7F4");
    ("NoteToken", "0xCFEAead4947f0705A14ec42aC3D44129E1Ef3eD5") ].

Definition LiquidationConfig_items : list (string * gmap string string) :=
  [ ("kovan", Py.dict_display kovan_items);
    ("mainnet", Py.dict_display mainnet_items) ].

Definition LiquidationConfig : gmap string (gmap string string) :=
  Py.dict_display LiquidationConfig_items.

(** ** Accessors of the registry *)

(** Modelled from the spec: the file declares the table only; [lookup] is
    the accessor of section 4.1, the double subscript
    [LiquidationConfig[network][label]] of the callers, which raises on the
    first absent key and has no default. *)
Definition lookup (network label : string) : Py.result string :=
  Py.bind (Py.getitem LiquidationConfig network) (λ addresses,
  Py.getitem addresses label).

(** Modelled from the spec: [networks()] of section 4.1, the set of keys of
    the outer dict. *)
Definition networks : gset string := Py.keys LiquidationConfig.

(** Modelled from the spec: [labels(network)] of section 4.1, the set of
    keys of [LiquidationConfig[network]]; the subscript raises for a network
    that is not in the table. *)
Definition labels (network : string) : Py.result (gset string) :=
  Py.bind (Py.getitem LiquidationConfig network) (λ addresses,
  inr (Py.keys addresses)).

(** The registry holds [address] for the pair [network], [label]. *)
Definition entry (network label address : string) : Prop :=
  ∃ addresses : gmap string string,
    LiquidationConfig !! network = Some addresses ∧
    addresses !! label = Some address.

(** ** The address format [0x[0-9a-fA-F]{40}] *)

Definition in_range (lo hi c : ascii) : bool :=
  Nat.leb (nat_of_ascii lo) (nat_of_ascii c) &&
  Nat.leb (nat_of_ascii c) (nat_of_ascii hi).

(** The character class [[0-9a-fA-F]]. *)
Definition is_hex_char (c : ascii) : bool :=
  in_range "0" "9" c || in_range "a" "f" c || in_range "A" "F" c.

(** Whole-string match of the pattern, as a test. *)
Definition matches_address (s : string) : bool :=
  match s with
  | String "0" (String "x" body) =>
      Nat.eqb (String.length body) 40 &&
      forallb is_hex_char (list_ascii_of_string body)
  | _ => false
  end.

(** The same as a proposition: the prefix, then exactly 40 characters, each
    a hexadecimal digit of either case. *)
Definition well_formed_address (s : string) : Prop :=
  ∃ body : string,
    s = "0x" +:+ body ∧
    String.length body = 40 ∧
    Forall (λ c, is_hex_char c = true) (list_ascii_of_string body).

(** ** Comparing addresses up to the case of their hexadecimal digits *)

(** ASCII case folding, as [str.lower] does on these strings: the letters
    [A-Z] move to [a-z], every other character stays. *)
Definition lower_char (c : ascii) : ascii :=
  if in_range "A" "Z" c then ascii_of_nat (nat_of_ascii c + 32) else c.

Definition lower (s : string) : string :=
  string_of_list_ascii (map lower_char (list_ascii_of_string s)).

(** The labels the kovan dict has and the mainnet dict has not. *)
Definition kovan_only : gset string :=
  {["MockFlashLender"; "LeakyFlashLender"; "ADAI"; "caDAI"; "UniswapWETHDAI"]}.

(** The labels whose address is the same on both networks. *)
Definition shared_label (l : string) : Prop :=
  l = "UniswapRouter" ∨ l = "NoteToken".

(** Every pair of a kovan entry and a mainnet entry, checked at once: the
    addresses agree up to case only when the labels are one and the same
    shared label, and then the addresses are the same string. *)
Definition cross_check (kv mv : string * string) : bool :=
  if bool_decide (lower kv.2 = lower mv.2)
  then bool_decide (kv.1 = mv.1 ∧ shared_label kv.1 ∧ kv.2 = mv.2)
  else bool_decide (kv.1 = mv.1 → ¬ shared_label kv.1).

(** ** Dict displays and subscripts *)

(** Decidable facts about the concrete table, settled by evaluation. *)
Ltac by_evaluation := apply (bool_decide_unpack _); vm_compute; exact I.

Section dict_facts.
Context {V : Type}.
Implicit Types (items : list (string * V)) (d : gmap string V).
Implicit Types (k : string) (v : V).

Lemma dict_display_from acc items :
  fold_left (λ d kv, <[kv.1 := kv.2]> d) items (list_to_map (reverse acc))
  = (list_to_map (reverse (acc ++ items)%list) : gmap string V).
Proof.
  revert acc. induction items as [|[k v] items IH]; intros acc; simpl.
  - by rewrite app_nil_r.
  - replace (acc ++ (k, v) :: items)%list
      with ((acc ++ [(k, v)]) ++ items)%list by (by rewrite <-app_assoc).
    rewrite <-IH. by rewrite reverse_app.
Qed.

(** Left-to-right construction is [list_to_map] on the reversed pairs:
    the last pair of a key is the one that stays. *)
Lemma dict_display_list_to_map items :
  Py.dict_display items = list_to_map (reverse items).
Proof. apply (dict_display_from []). Qed.

Lemma dict_display_lookup items k v :
  NoDup items.*1 →
  Py.dict_display items !! k = Some v ↔ (k, v) ∈ items.
Proof.
  intros Hnd. rewrite dict_display_list_to_map.
  rewrite <-elem_of_list_to_map.
  - by rewrite elem_of_reverse.
  - by rewrite fmap_reverse, reverse_Permutation.
Qed.

Lemma keys_dict_display items :
  Py.keys (Py.dict_display items) = list_to_set items.*1.
Proof.
  unfold Py.keys. rewrite dict_display_list_to_map, dom_list_to_map_L.
  rewrite fmap_reverse. apply set_eq; intros k.
  by rewrite !elem_of_list_to_set, elem_of_reverse.
Qed.

Lemma elem_of_keys d k : k ∈ Py.keys d ↔ is_Some (d !! k).
Proof. apply elem_of_dom. Qed.

Lemma getitem_inr d k v : Py.getitem d k = inr v ↔ d !! k = Some v.
Proof. unfold Py.getitem. destruct (d !! k); split; congruence. Qed.

Lemma getitem_inl d k e :
  Py.getitem d k = inl e ↔ d !! k = None ∧ e = Py.KeyNotFound k.
Proof.
  unfold Py.getitem. destruct (d !! k) as [v|].
  - split; [discriminate | intros [? _]; discriminate].
  - split; [intros [= <-]; done | intros [_ ->]; done].
Qed.
End dict_facts.

(** ** The accessors in terms of the table *)

Lemma networks_spec (n : string) :
  n ∈ networks ↔ is_Some (LiquidationConfig !! n).
Proof. apply elem_of_keys. Qed.

Lemma labels_inr (n : string) (ls : gset string) :
  labels n = inr ls ↔
  ∃ addresses, LiquidationConfig !! n = Some addresses ∧ ls = Py.keys addresses.
Proof.
  unfold labels, Py.bind, Py.getitem.
  destruct (LiquidationConfig !! n) as [d|]; split.
  - intros [= <-]. by exists d.
  - intros (d' & [= <-] & ->). done.
  - discriminate.
  - intros (d' & [=] & _).
Qed.

Lemma labels_inl (n : string) (e : Py.error) :
  labels n = inl e ↔ (n ∉ networks) ∧ e = Py.KeyNotFound n.
Proof.
  rewrite networks_spec. rewrite <-eq_None_not_Some.
  unfold labels, Py.bind, Py.getitem.
  destruct (LiquidationConfig !! n) as [d|]; split.
  - discriminate.
  - intros [[=] _].
  - intros [= <-]. done.
  - intros [_ ->]. done.
Qed.

Lemma lookup_inr (n l a : string) : lookup n l = inr a ↔ entry n l a.
Proof.
  unfold lookup, entry, Py.bind, Py.getitem.
  destruct (LiquidationConfig !! n) as [d|]; split.
  - destruct (d !! l) as [a'|] eqn:Hl; intros [= <-]. by exists d.
  - intros (d' & [= <-] & ->). done.
  - discriminate.
  - intros (d' & [=] & _).
Qed.

Lemma lookup_inl (n l : string) (e : Py.error) :
  lookup n l = inl e ↔
  (LiquidationConfig !! n = None ∧ e = Py.KeyNotFound n) ∨
  (∃ addresses, LiquidationConfig !! n = Some addresses ∧
                addresses !! l = None ∧ e = Py.KeyNotFound l).
Proof.
  unfold lookup, Py.bind, Py.getitem.
  destruct (LiquidationConfig !! n) as [d|]; split.
  - destruct (d !! l) as [a'|] eqn:Hl; intros [= <-]. right. by exists d.
  - intros [[[=] _] | (d' & [= <-] & -> & ->)]. done.
  - intros [= <-]. by left.
  - intros [[_ ->] | (d' & [=] & _)]. done.
Qed.

(** The maps of the table hold exactly the pairs written in the source. *)
Lemma entry_literal (n l a : string) :
  entry n l a ↔
  (n = "kovan" ∧ (l, a) ∈ kovan_items) ∨
  (n = "mainnet" ∧ (l, a) ∈ mainnet_items).
Proof.
  assert (Hk : NoDup kovan_items.*1) by by_evaluation.
  assert (Hm : NoDup mainnet_items.*1) by by_evaluation.
  assert (Ho : NoDup LiquidationConfig_items.*1)
    by by_evaluation.
  unfold entry, LiquidationConfig. split.
  - intros (d & Hd & Ha). apply (dict_display_lookup _ _ _ Ho) in Hd.
    unfold LiquidationConfig_items in Hd.
    apply elem_of_cons in Hd as [[= -> ->] | Hd];
      [| apply elem_of_cons in Hd as [[= -> ->] | Hd]; [| by apply elem_of_nil in Hd]].
    + left. split; [done |]. by apply dict_display_lookup.
    + right. split; [done |]. by apply dict_display_lookup.
  - intros [[-> Hin] | [-> Hin]].
    + exists (Py.dict_display kovan_items). split.
      * apply (dict_display_lookup _ _ _ Ho). unfold LiquidationConfig_items. repeat constructor.
      * by apply dict_display_lookup.
    + exists (Py.dict_display mainnet_items). split.
      * apply (dict_display_lookup _ _ _ Ho). unfold LiquidationConfig_items. repeat constructor.
      * by apply dict_display_lookup.
Qed.

(** ** The address test decides the format *)

Lemma forallb_Forall_true {A : Type} (f : A → bool) (l : list A) :
  forallb f l = true ↔ Forall (λ x, f x = true) l.
Proof.
  induction l as [|x l IH]; simpl.
  - split; [constructor | done].
  - rewrite andb_true_iff, IH. split.
    + intros [? ?]. by constructor.
    + by inversion 1.
Qed.

Lemma matches_address_spec (s : string) :
  matches_address s = true ↔ well_formed_address s.
Proof.
  unfold well_formed_address. split.
  - destruct s as [|c1 [|c2 body]]; simpl; try discriminate.
    + destruct c1 as [[] [] [] [] [] [] [] []]; discriminate.
    + destruct c1 as [[] [] [] [] [] [] [] []]; try discriminate.
      destruct c2 as [[] [] [] [] [] [] [] []]; try discriminate.
      rewrite andb_true_iff, Nat.eqb_eq, forallb_Forall_true.
      intros [Hlen Hhex]. by exists body.
  - intros (body & -> & Hlen & Hhex).
    change (Nat.eqb (String.length body) 40 &&
            forallb is_hex_char (list_ascii_of_string body) = true).
    rewrite andb_true_iff, Nat.eqb_eq, forallb_Forall_true. done.
Qed.

(** The test rejects a missing prefix, a wrong length and a character
    outside the class. *)
Example matches_address_rejects :
  matches_address "C02aaA39b223FE8D0A0e5C4F27eAD9083C756Cc2" = false ∧
  matches_address "0xC02aaA39b223FE8D0A0e5C4F27eAD9083C756Cc" = false ∧
  matches_address "0xC02aaA39b223FE8D0A0e5C4F27eAD9083C756Cc2a" = false ∧
  matches_address "0xG02aaA39b223FE8D0A0e5C4F27eAD9083C756Cc2" = false ∧
  matches_address "0XC02aaA39b223FE8D0A0e5C4F27eAD9083C756Cc2" = false.
Proof. repeat split; reflexivity. Qed.

Lemma items_match_address :
  Forall (λ kv : string * string, matches_address kv.2 = true)
         (kovan_items ++ mainnet_items)%list.
Proof. apply (forallb_Forall_true (λ kv, matches_address kv.2)). reflexivity. Qed.

Lemma entry_well_formed (n l a : string) : entry n l a → well_formed_address a.
Proof.
  intros He. apply matches_address_spec.
  pose proof items_match_address as Hall.
  rewrite Forall_forall in Hall.
  apply entry_literal in He as [[_ Hin] | [_ Hin]];
    apply (Hall (l, a)); apply elem_of_app; [by left | by right].
Qed.

Lemma elem_of_networks (n : string) :
  n ∈ networks ↔ n = "kovan" ∨ n = "mainnet".
Proof.
  unfold networks, LiquidationConfig. rewrite keys_dict_display. simpl.
  rewrite elem_of_union, elem_of_union, !elem_of_singleton.
  split; [intros [? | [? | []%not_elem_of_empty]]; auto | intros [? | ?]; auto].
Qed.

(** * The properties of section 8 and of the data model *)

(** C1: for every network [n] of the registry and every label [l] of
    [labels n], [lookup n l] returns a string made of the prefix 0x and then
    exactly 40 hexadecimal characters of either case. *)
Theorem lookup_matches_address_pattern (n l : string) (ls : gset string) :
  n ∈ networks → labels n = inr ls → l ∈ ls →
  ∃ a, lookup n l = inr a ∧ well_formed_address a.
Proof.
  intros _ (d & Hd & ->)%labels_inr [a Ha]%elem_of_keys.
  assert (He : entry n l a) by (by exists d).
  exists a. split; [by apply lookup_inr | by apply (entry_well_formed n l)].
Qed.

Lemma lookup_matches_address_pattern_witness :
  ∃ a, lookup "kovan" "cDAI" = inr a ∧ well_formed_address a.
Proof.
  apply (lookup_matches_address_pattern "kovan" "cDAI"
           (Py.keys (Py.dict_display kovan_items))).
  - apply (bool_decide_unpack _). vm_compute. exact I.
  - exact (@eq_refl _ (labels "kovan")
             <: labels "kovan" = inr (Py.keys (Py.dict_display kovan_items))).
  - apply (bool_decide_unpack _). vm_compute. exact I.
Defined.

(** C2: [lookup network label] returns the address the registry stores for
    the pair when the network and the label are both present; it fails with
    [KeyNotFound] exactly when the network or the label is absent; and
    whatever it returns is the stored address, never a default. *)
Theorem lookup_found_or_key_not_found (n l : string) :
  (∀ ls, n ∈ networks → labels n = inr ls → l ∈ ls →
         ∃ a, entry n l a ∧ lookup n l = inr a) ∧
  ((∃ k, lookup n l = inl (Py.KeyNotFound k)) ↔
   (n ∉ networks) ∨ (∃ ls, labels n = inr ls ∧ l ∉ ls)) ∧
  (∀ a, lookup n l = inr a → entry n l a).
Proof.
  split; [| split].
  - intros ls _ (d & Hd & ->)%labels_inr [a Ha]%elem_of_keys.
    assert (He : entry n l a) by (by exists d).
    exists a. split; [done | by apply lookup_inr].
  - split.
    + intros [k [[Hn _] | (d & Hd & Hl & _)]%lookup_inl].
      * left. rewrite networks_spec, Hn. by intros [? ?].
      * right. exists (Py.keys d). split; [apply labels_inr; by exists d |].
        rewrite elem_of_keys, Hl. by intros [? ?].
    + intros [Hn | (ls & (d & Hd & ->)%labels_inr & Hl)].
      * exists n. apply lookup_inl. left. split; [| done].
        apply eq_None_not_Some. by rewrite <-networks_spec.
      * exists l. apply lookup_inl. right. exists d. repeat split; [done |].
        apply eq_None_not_Some. by rewrite <-elem_of_keys.
  - intros a. apply lookup_inr.
Qed.

(** C3: [lookup "mainnet" "WETH"] returns exactly
    0xC02aaA39b223FE8D0A0e5C4F27eAD9083C756Cc2. *)
Theorem lookup_mainnet_WETH :
  lookup "mainnet" "WETH" = inr "0xC02aaA39b223FE8D0A0e5C4F27eAD9083C756Cc2".
Proof. vm_compute. reflexivity. Qed.

(** C4: [lookup "kovan" "NoteToken"] equals [lookup "mainnet" "NoteToken"],
    and both are 0xCFEAead4947f0705A14ec42aC3D44129E1Ef3eD5. *)
Theorem lookup_NoteToken_shared :
  lookup "kovan" "NoteToken" = lookup "mainnet" "NoteToken" ∧
  lookup "kovan" "NoteToken" = inr "0xCFEAead4947f0705A14ec42aC3D44129E1Ef3eD5" ∧
  lookup "mainnet" "NoteToken" = inr "0xCFEAead4947f0705A14ec42aC3D44129E1Ef3eD5".
Proof. repeat split; vm_compute; reflexivity. Qed.

Lemma labels_kovan : labels "kovan" = inr (Py.keys (Py.dict_display kovan_items)).
Proof.
  apply labels_inr. eexists. split; [| reflexivity].
  apply dict_display_lookup; [by_evaluation | repeat constructor].
Qed.

Lemma labels_mainnet :
  labels "mainnet" = inr (Py.keys (Py.dict_display mainnet_items)).
Proof.
  apply labels_inr. eexists. split; [| reflexivity].
  apply dict_display_lookup; [by_evaluation | repeat constructor].
Qed.

(** C5: MockFlashLender, LeakyFlashLender and UniswapWETHDAI are labels of
    kovan and not of mainnet; [lookup "kovan" "MockFlashLender"] succeeds and
    [lookup "mainnet" "MockFlashLender"] fails with [KeyNotFound]. *)
Theorem kovan_only_labels :
  ∃ lk lm : gset string,
    labels "kovan" = inr lk ∧ labels "mainnet" = inr lm ∧
    Forall (λ l, l ∈ lk ∧ l ∉ lm)
           ["MockFlashLender"; "LeakyFlashLender"; "UniswapWETHDAI"] ∧
    lookup "kovan" "MockFlashLender"
      = inr "0xFcdAe2109D5Fa3Fbe82E4FE03110966cA449057c" ∧
    lookup "mainnet" "MockFlashLender" = inl (Py.KeyNotFound "MockFlashLender").
Proof.
  eexists _, _. split; [apply labels_kovan |]. split; [apply labels_mainnet |].
  split; [| split].
  - repeat constructor; by_evaluation.
  - vm_compute. reflexivity.
  - vm_compute. reflexivity.
Qed.

(** C6: [networks ()] is the fixed set of network names, exactly the two
    names kovan and mainnet. *)
Theorem networks_kovan_mainnet :
  networks = {["kovan"; "mainnet"]} ∧ size networks = 2.
Proof.
  assert (Heq : networks = {["kovan"; "mainnet"]}).
  { apply set_eq; intros n. rewrite elem_of_networks. set_solver. }
  split; [done |]. rewrite Heq.
  rewrite size_union by set_solver. by rewrite !size_singleton.
Qed.

(** C7: for every network [n] of [networks ()], [labels n] returns a set
    that is not empty. *)
Theorem labels_nonempty (n : string) :
  n ∈ networks → ∃ ls, labels n = inr ls ∧ ls ≠ ∅.
Proof.
  intros [-> | ->]%elem_of_networks.
  - eexists. split; [apply labels_kovan |].
    intros Hempty. assert (Hin : "WETH" ∈ Py.keys (Py.dict_display kovan_items))
      by by_evaluation.
    rewrite Hempty in Hin. by apply not_elem_of_empty in Hin.
  - eexists. split; [apply labels_mainnet |].
    intros Hempty. assert (Hin : "WETH" ∈ Py.keys (Py.dict_display mainnet_items))
      by by_evaluation.
    rewrite Hempty in Hin. by apply not_elem_of_empty in Hin.
Qed.

Lemma labels_nonempty_witness : ∃ ls, labels "mainnet" = inr ls ∧ ls ≠ ∅.
Proof.
  apply (labels_nonempty "mainnet").
  apply (bool_decide_unpack _). vm_compute. exact I.
Defined.

(** C9: [lookup "kovan" "UniswapRouter"] equals
    [lookup "mainnet" "UniswapRouter"]; both return
    0xE592427A0AEce92De3Edee1F18E0157C05861564. *)
Theorem lookup_UniswapRouter_shared :
  lookup "kovan" "UniswapRouter" = lookup "mainnet" "UniswapRouter" ∧
  lookup "kovan" "UniswapRouter" = inr "0xE592427A0AEce92De3Edee1F18E0157C05861564" ∧
  lookup "mainnet" "UniswapRouter" = inr "0xE592427A0AEce92De3Edee1F18E0157C05861564".
Proof. repeat split; vm_compute; reflexivity. Qed.

(** C10: the labels of mainnet are a strict subset of the labels of kovan:
    each label of mainnet is a label of kovan, and some label of kovan is
    not a label of mainnet. *)
Theorem labels_mainnet_strict_subset_kovan :
  ∃ lk lm : gset string,
    labels "kovan" = inr lk ∧ labels "mainnet" = inr lm ∧
    lm ⊂ lk ∧ (∃ l, l ∈ lk ∧ l ∉ lm).
Proof.
  eexists _, _. split; [apply labels_kovan |]. split; [apply labels_mainnet |].
  assert (Hsub : Py.keys (Py.dict_display mainnet_items)
                 ⊆ Py.keys (Py.dict_display kovan_items)) by by_evaluation.
  assert (Hin : "caDAI" ∈ Py.keys (Py.dict_display kovan_items)) by by_evaluation.
  assert (Hout : "caDAI" ∉ Py.keys (Py.dict_display mainnet_items)) by by_evaluation.
  split; [| by exists "caDAI"].
  split; [done |]. intros Hsup. by apply Hout, Hsup.
Qed.

(** * Further properties of the table *)

(** Two elements of a list with the same image under [f] are equal when the
    images of the list have no duplicate. *)
Lemma NoDup_fmap_eq {A B : Type} (f : A → B) (l : list A) (x y : A) :
  NoDup (f <$> l) → x ∈ l → y ∈ l → f x = f y → x = y.
Proof.
  induction l as [|z l IH]; simpl.
  - by intros _ []%elem_of_nil.
  - intros [Hz Hnd]%NoDup_cons [-> | Hx]%elem_of_cons [-> | Hy]%elem_of_cons Hf.
    + done.
    + exfalso. apply Hz. rewrite Hf. by apply list_elem_of_fmap_2.
    + exfalso. apply Hz. rewrite <-Hf. by apply list_elem_of_fmap_2.
    + by apply IH.
Qed.

Lemma lookup_literal (n l a : string) :
  lookup n l = inr a →
  (n = "kovan" ∧ (l, a) ∈ kovan_items) ∨ (n = "mainnet" ∧ (l, a) ∈ mainnet_items).
Proof. intros H%lookup_inr. by apply entry_literal. Qed.

Lemma lower_addresses_NoDup :
  NoDup (lower ∘ snd <$> kovan_items) ∧ NoDup (lower ∘ snd <$> mainnet_items).
Proof. split; by_evaluation. Qed.

(** X1: [lookup] succeeds with an address exactly for the pairs written in
    the source under that network: no written pair is shadowed by a later
    pair with the same key, and nothing else is returned. *)
Theorem lookup_returns_written_pairs (n l a : string) :
  lookup n l = inr a ↔
  (n = "kovan" ∧ (l, a) ∈ kovan_items) ∨ (n = "mainnet" ∧ (l, a) ∈ mainnet_items).
Proof. rewrite lookup_inr. apply entry_literal. Qed.

(** X2: the labels of kovan are the labels of mainnet together with the five
    labels MockFlashLender, LeakyFlashLender, ADAI, caDAI and UniswapWETHDAI,
    none of which is a label of mainnet; kovan has 17 labels and mainnet 12. *)
Theorem kovan_labels_mainnet_plus_five :
  ∃ lk lm : gset string,
    labels "kovan" = inr lk ∧ labels "mainnet" = inr lm ∧
    lk = lm ∪ kovan_only ∧ lm ## kovan_only ∧
    size lk = 17 ∧ size lm = 12 ∧ size kovan_only = 5.
Proof.
  eexists _, _. split; [apply labels_kovan |]. split; [apply labels_mainnet |].
  split; [by_evaluation |]. split; [by_evaluation |].
  repeat split; vm_compute; reflexivity.
Qed.

(** X3: within one network no two labels have the same address: if
    [lookup n l1] and [lookup n l2] return the same string, [l1] is [l2]. *)
Theorem lookup_injective_in_label (n l1 l2 a : string) :
  lookup n l1 = inr a → lookup n l2 = inr a → l1 = l2.
Proof.
  destruct lower_addresses_NoDup as [Hk Hm].
  intros [[-> H1] | [-> H1]]%lookup_literal [[Hn H2] | [Hn H2]]%lookup_literal;
    try discriminate Hn.
  - by apply (f_equal fst (NoDup_fmap_eq (lower ∘ snd) _ (l1, a) (l2, a) Hk H1 H2 eq_refl)).
  - by apply (f_equal fst (NoDup_fmap_eq (lower ∘ snd) _ (l1, a) (l2, a) Hm H1 H2 eq_refl)).
Qed.

Lemma lookup_injective_in_label_witness : "cETH" = "cETH".
Proof.
  apply (lookup_injective_in_label "mainnet" "cETH" "cETH"
           "0x4ddc2d193948926d02f9b1fe9e1daa0718270ed5");
    vm_compute; reflexivity.
Defined.

(** X4: the same up to the case of the hexadecimal digits: two labels of
    one network whose addresses agree after case folding are the same
    label. *)
Theorem lookup_injective_up_to_case (n l1 l2 a1 a2 : string) :
  lookup n l1 = inr a1 → lookup n l2 = inr a2 → lower a1 = lower a2 → l1 = l2.
Proof.
  destruct lower_addresses_NoDup as [Hk Hm].
  intros [[-> H1] | [-> H1]]%lookup_literal [[Hn H2] | [Hn H2]]%lookup_literal Ha;
    try discriminate Hn.
  - by apply (f_equal fst (NoDup_fmap_eq (lower ∘ snd) _ (l1, a1) (l2, a2) Hk H1 H2 Ha)).
  - by apply (f_equal fst (NoDup_fmap_eq (lower ∘ snd) _ (l1, a1) (l2, a2) Hm H1 H2 Ha)).
Qed.

Lemma lookup_injective_up_to_case_witness : "WBTC" = "WBTC".
Proof.
  apply (lookup_injective_up_to_case "kovan" "WBTC" "WBTC"
           "0x45a8451ceaae5976b4ae5f14a7ad789fae8e9971"
           "0x45a8451ceaae5976b4ae5f14a7ad789fae8e9971");
    vm_compute; reflexivity.
Defined.

Lemma cross_check_all (kv mv : string * string) :
  kv ∈ kovan_items → mv ∈ mainnet_items → cross_check kv mv = true.
Proof.
  assert (Hall : forallb (λ kv, forallb (cross_check kv) mainnet_items) kovan_items
                 = true) by (vm_compute; reflexivity).
  rewrite forallb_Forall_true, Forall_forall in Hall.
  intros Hk Hm. specialize (Hall kv Hk).
  rewrite forallb_Forall_true, Forall_forall in Hall. by apply Hall.
Qed.

(** X5: for a label that both networks have, the kovan address and the
    mainnet address are the same string exactly when the label is
    UniswapRouter or NoteToken; for every other common label they differ. *)
Theorem common_label_same_address_iff (l ak am : string) :
  lookup "kovan" l = inr ak → lookup "mainnet" l = inr am →
  (ak = am ↔ shared_label l).
Proof.
  intros [[_ Hk] | [[=] _]]%lookup_literal [[[=] _] | [_ Hm]]%lookup_literal.
  pose proof (cross_check_all _ _ Hk Hm) as Hc. unfold cross_check in Hc.
  simpl in Hc. case_bool_decide as Hlow.
  - apply bool_decide_eq_true_1 in Hc as (_ & Hs & Ha). done.
  - apply bool_decide_eq_true_1 in Hc. split.
    + intros ->. done.
    + intros Hs. by destruct (Hc eq_refl).
Qed.

Lemma common_label_same_address_iff_witness :
  "0xd0A1E359811322d97991E03f863a0C30C2cF029C"
  = "0xC02aaA39b223FE8D0A0e5C4F27eAD9083C756Cc2" ↔ shared_label "WETH".
Proof.
  apply (common_label_same_address_iff "WETH"); vm_compute; reflexivity.
Defined.

(** X6: an address that occurs on both networks, compared up to the case of
    its digits, occurs there under one and the same label, that label is
    UniswapRouter or NoteToken, and the two strings are equal. *)
Theorem address_on_both_networks (l1 l2 ak am : string) :
  lookup "kovan" l1 = inr ak → lookup "mainnet" l2 = inr am →
  lower ak = lower am →
  l1 = l2 ∧ shared_label l1 ∧ ak = am.
Proof.
  intros [[_ Hk] | [[=] _]]%lookup_literal [[[=] _] | [_ Hm]]%lookup_literal Hlow.
  pose proof (cross_check_all _ _ Hk Hm) as Hc. unfold cross_check in Hc.
  simpl in Hc. rewrite bool_decide_eq_true_2 in Hc by done.
  by apply bool_decide_eq_true_1 in Hc.
Qed.

Lemma address_on_both_networks_witness :
  "NoteToken" = "NoteToken" ∧ shared_label "NoteToken" ∧
  "0xCFEAead4947f0705A14ec42aC3D44129E1Ef3eD5"
  = "0xCFEAead4947f0705A14ec42aC3D44129E1Ef3eD5".
Proof.
  apply (address_on_both_networks "NoteToken" "NoteToken"); vm_compute; reflexivity.
Defined.
